(** * os.h: anonymous memory and read-only file maps over Win32 and POSIX

    A shallow embedding of the four operations of [os.h] ([Alloc], [Free],
    [MapFile], [UnmapFile]) in both of its backends.  An operation is a
    program over the native calls it makes; the operating system is a
    host that answers each call from the history of the calls made so
    far; a run threads the caller's output struct and the log of calls.
    The two demonstration programs of [demo/] are embedded as callers.

    Conventions: 64-bit targets (pointers, [size_t] and [SIZE_T] are 64
    bits wide, [DWORD] is 32); the constants are those of the Windows SDK
    and of the Linux headers. *)

From Stdlib Require Import ZArith List String Bool Lia.
Import ListNotations.
Local Open Scope Z_scope.

(** ** Fixed-width data *)

(** [typedef char Bool], [#define TRUE 1], [#define FALSE 0]. *)
Definition Bool := bool.
Definition TRUE : Bool := true.
Definition FALSE : Bool := false.

(** [Uint64], [size_t] (LP64 and Win64: 64 bits) and [DWORD] (32 bits)
    are unsigned: a conversion to one of them wraps around. *)
Definition to_Uint64 (x : Z) : Z := x mod 2 ^ 64.
Definition to_size_t (x : Z) : Z := x mod 2 ^ 64.
Definition to_DWORD (x : Z) : Z := x mod 2 ^ 32.

(** Pointers are addresses; [NULL] is address zero. *)
Abbreviation NULL := 0%Z (only parsing).

(** [typedef struct { Uint8 *base; Uint64 size; } Bytes;] *)
Record Bytes := mkBytes { base : Z; size : Z }.

Infix ".|" := Z.lor (at level 40, left associativity).

(** ** Constants of the platform headers *)

Module WinH.
Definition MEM_COMMIT : Z := 0x1000.
Definition MEM_RESERVE : Z := 0x2000.
Definition MEM_RELEASE : Z := 0x8000.
Definition MEM_LARGE_PAGES : Z := 0x20000000.
Definition PAGE_READONLY : Z := 0x02.
Definition PAGE_READWRITE : Z := 0x04.
Definition SEC_LARGE_PAGES : Z := 0x80000000.
Definition GENERIC_READ : Z := 0x80000000.
Definition OPEN_EXISTING : Z := 3.
Definition FILE_ATTRIBUTE_NORMAL : Z := 0x80.
Definition FILE_MAP_READ : Z := 0x0004.
Definition INVALID_HANDLE_VALUE : Z := 2 ^ 64 - 1.
Definition INVALID_FILE_SIZE : Z := 0xFFFFFFFF.
Definition FORMAT_MESSAGE_FROM_SYSTEM : Z := 0x1000.
Definition FORMAT_MESSAGE_IGNORE_INSERTS : Z := 0x200.
Definition FORMAT_MESSAGE_MAX_WIDTH_MASK : Z := 0xFF.
Definition CP_ACP : Z := 0.
Definition CP_UTF8 : Z := 65001.
Definition MAX_PATH : Z := 260.
End WinH.

Module UnixH.
Definition PROT_READ : Z := 0x1.
Definition PROT_WRITE : Z := 0x2.
Definition MAP_PRIVATE : Z := 0x02.
Definition MAP_ANONYMOUS : Z := 0x20.
Definition MAP_HUGETLB : Z := 0x40000.
Definition MAP_FAILED : Z := 2 ^ 64 - 1.
Definition O_RDONLY : Z := 0.
End UnixH.

(** ** Native calls *)

(** Every call that leaves [os.h]: the Win32 and POSIX primitives with the
    arguments the source passes (output buffers are part of the answer),
    and the caller's [TRACE_ERROR] sink.  [TRACE_ERROR] is a macro of the
    caller; the log records each place where the source invokes it, with
    the text it is given.  ([os.h] defines it empty when the caller
    defines none: the invocation then expands to nothing.) *)
Inductive Call : Type :=
  (* Win32 *)
  | GetLastError
  | FormatMessage (dwFlags lpSource dwMessageId dwLanguageId nSize : Z)
  | WideCharToMultiByte (codePage dwFlags : Z) (wstr : string)
      (cchWideChar cbMultiByte : Z)
  | MultiByteToWideChar (codePage dwFlags : Z) (str : string) (cb cch : Z)
  | VirtualAlloc (lpAddress dwSize flAllocationType flProtect : Z)
  | VirtualFree (lpAddress dwSize dwFreeType : Z)
  | CreateFile (lpFileName : string)
      (dwDesiredAccess dwShareMode lpSecurityAttributes
       dwCreationDisposition dwFlagsAndAttributes hTemplateFile : Z)
  | GetFileSize (hFile lpFileSizeHigh : Z)
  | CloseHandle (hObject : Z)
  | CreateFileMapping
      (hFile lpAttributes flProtect dwMaximumSizeHigh dwMaximumSizeLow
       lpName : Z)
  | MapViewOfFile
      (hFileMappingObject dwDesiredAccess dwFileOffsetHigh dwFileOffsetLow
       dwNumberOfBytesToMap : Z)
  | UnmapViewOfFile (lpBaseAddress : Z)
  (* POSIX *)
  | mmap (addr len prot flags fd off : Z)
  | munmap (addr len : Z)
  | open (path : string) (flags : Z)
  | fstat (fd : Z)
  | close (fd : Z)
  | errno
  | strerror (errnum : Z)
  (* the caller's sink *)
  | TRACE_ERROR (cstr : string).

(** What a call hands back: a machine integer (a count, a status, a handle
    or an address), except that [FormatMessage] and [MultiByteToWideChar]
    also fill a buffer, [fstat] also fills [st.st_size], the string
    conversions yield text and the sink yields nothing. *)
Definition Ans (c : Call) : Type :=
  match c with
  | FormatMessage _ _ _ _ _ => (Z * string)%type
  | MultiByteToWideChar _ _ _ _ _ => (Z * string)%type
  | WideCharToMultiByte _ _ _ _ _ => string
  | fstat _ => (Z * Z)%type
  | strerror _ => string
  | TRACE_ERROR _ => unit
  | _ => Z
  end.

Record Event := Ev { ev_call : Call; ev_ans : Ans ev_call }.

(** The operating system: an answer to every call, given the history. *)
Definition OS := list Event -> forall c : Call, Ans c.

(** ** The monad of an operation *)

(** An operation is a tree of native calls and of stores to the struct
    behind its pointer parameter ([Bytes *bytes], [Bytes *fileMap]); what
    it does next may depend on what each call answered. *)
Inductive M (A : Type) : Type :=
  | Ret (a : A)
  | Native (c : Call) (k : Ans c -> M A)
  | Store (f : Bytes -> Bytes) (k : M A).

Arguments Ret {A} a.
Arguments Native {A} c k.
Arguments Store {A} f k.

Definition ret {A} (a : A) : M A := Ret a.

Fixpoint bind {A B} (m : M A) (f : A -> M B) : M B :=
  match m with
  | Ret a => f a
  | Native c k => Native c (fun a => bind (k a) f)
  | Store g k => Store g (bind k f)
  end.

Notation "x <- m ;; k" := (bind m (fun x => k))
  (at level 61, m at next level, right associativity).
Notation "m ;;; k" := (bind m (fun _ => k))
  (at level 61, right associativity).

Definition call (c : Call) : M (Ans c) := Native c Ret.

(** [p->size = v] and [p->base = v] on the output struct. *)
Definition set_size (v : Z) : M unit :=
  Store (fun b => mkBytes (base b) v) (Ret tt).
Definition set_base (v : Z) : M unit :=
  Store (fun b => mkBytes v (size b)) (Ret tt).

(** The state of a run: [out] is the caller's struct, [trace] the calls
    made so far with their answers, in order. *)
Record State := mkState { out : Bytes; trace : list Event }.

Fixpoint exec {A} (os : OS) (m : M A) (s : State) : A * State :=
  match m with
  | Ret a => (a, s)
  | Native c k =>
      let a := os (trace s) c in
      exec os (k a) (mkState (out s) (trace s ++ [Ev c a]))
  | Store g k => exec os k (mkState (g (out s)) (trace s))
  end.

(** Running an operation on a host and a caller's struct, from an empty
    log: what it returns, what it leaves in the struct, what it called. *)
Definition run {A} (os : OS) (m : M A) (b : Bytes) : A * State :=
  exec os m (mkState b []).
Definition result {A} (os : OS) (m : M A) (b : Bytes) : A :=
  fst (run os m b).
Definition region {A} (os : OS) (m : M A) (b : Bytes) : Bytes :=
  out (snd (run os m b)).
Definition calls {A} (os : OS) (m : M A) (b : Bytes) : list Event :=
  trace (snd (run os m b)).

(** ** The Win32 backend ([#ifdef _WIN32]) *)

Module Win32.
Import WinH.
Section Backend.
Variable LARGE_PAGES : bool.
Variable UNICODE : bool.

Definition TraceError : M unit :=
  e <- call GetLastError ;;
  r <- call (FormatMessage
                  (FORMAT_MESSAGE_FROM_SYSTEM .| FORMAT_MESSAGE_IGNORE_INSERTS)
                  NULL e 0 FORMAT_MESSAGE_MAX_WIDTH_MASK) ;;
  let size := to_DWORD (fst r) in
  let tstr := snd r in
  if size =? 0 then
    call (TRACE_ERROR
               "Could not format a human readable error message"%string)
  else
    cstr <- (if UNICODE
             then call (WideCharToMultiByte CP_UTF8 0 tstr (-1)
                       FORMAT_MESSAGE_MAX_WIDTH_MASK)
             else ret tstr) ;;
    call (TRACE_ERROR cstr).

Definition Alloc (size : Z) : M Bool :=
  let largePages := if LARGE_PAGES then MEM_LARGE_PAGES else 0 in
  base <- call (VirtualAlloc NULL (to_size_t size)
                     (MEM_RESERVE .| MEM_COMMIT .| largePages)
                     PAGE_READWRITE) ;;
  if base =? NULL then
    TraceError ;;; ret FALSE
  else
    set_size size ;;;
    set_base base ;;;
    ret TRUE.

Definition Free (bytes : Bytes) : M Bool :=
  r <- call (VirtualFree (base bytes) 0 MEM_RELEASE) ;;
  if r =? 0 then
    TraceError ;;; ret FALSE
  else
    ret TRUE.

(** The body of [MapFile] below the [#if defined(UNICODE)] block, which
    only decides what [tFilePath] is. *)
Definition MapFile_open (tFilePath : string) : M Bool :=
  hFile <- call (CreateFile tFilePath GENERIC_READ 0 NULL OPEN_EXISTING
                      FILE_ATTRIBUTE_NORMAL NULL) ;;
  if hFile =? INVALID_HANDLE_VALUE then
    TraceError ;;; ret FALSE
  else
    n <- call (GetFileSize hFile NULL) ;;
    if to_DWORD n =? 0 then
      call (CloseHandle hFile) ;;;
      set_size 0 ;;;
      set_base NULL ;;;
      ret TRUE
    else
      let largePages := if LARGE_PAGES then SEC_LARGE_PAGES else 0 in
      hMapping <- call (CreateFileMapping hFile NULL
                             (PAGE_READONLY .| largePages) 0 0 NULL) ;;
      if hMapping =? NULL then
        TraceError ;;;
        call (CloseHandle hFile) ;;;
        ret FALSE
      else
        pMapView <- call (MapViewOfFile hMapping FILE_MAP_READ 0 0 0) ;;
        if pMapView =? NULL then
          TraceError ;;;
          call (CloseHandle hMapping) ;;;
          call (CloseHandle hFile) ;;;
          ret FALSE
        else
          m <- call (GetFileSize hFile NULL) ;;
          set_size (to_Uint64 (to_DWORD m)) ;;;
          set_base pMapView ;;;
          call (CloseHandle hMapping) ;;;
          call (CloseHandle hFile) ;;;
          ret TRUE.

Definition MapFile (filePath : string) : M Bool :=
  if UNICODE then
    r <- call (MultiByteToWideChar CP_ACP 0 filePath (-1) MAX_PATH) ;;
    if fst r =? 0 then
      TraceError ;;; ret FALSE
    else
      MapFile_open (snd r)
  else
    MapFile_open filePath.

Definition UnmapFile (fileMap : Bytes) : M Bool :=
  if size fileMap =? 0 then
    ret TRUE
  else
    let pMapView := base fileMap in
    r <- call (UnmapViewOfFile pMapView) ;;
    if r =? 0 then
      TraceError ;;; ret FALSE
    else
      ret TRUE.
End Backend.
End Win32.

(** ** The POSIX backend ([#elif defined(__unix__)]) *)

Module Unix.
Import UnixH.
Section Backend.
Variable LARGE_PAGES : bool.

(** The statement [TRACE_ERROR(strerror(errno));]. *)
Definition TRACE_ERROR_strerror_errno : M unit :=
  e <- call errno ;;
  msg <- call (strerror e) ;;
  call (TRACE_ERROR msg).

Definition Alloc (size : Z) : M Bool :=
  let largePages := if LARGE_PAGES then MAP_HUGETLB else 0 in
  base <- call (mmap NULL (to_size_t size) (PROT_READ .| PROT_WRITE)
                     (MAP_PRIVATE .| MAP_ANONYMOUS .| largePages) (-1) 0) ;;
  if base =? MAP_FAILED then
    TRACE_ERROR_strerror_errno ;;; ret FALSE
  else
    set_size size ;;;
    set_base base ;;;
    ret TRUE.

Definition Free (bytes : Bytes) : M Bool :=
  r <- call (munmap (base bytes) (to_size_t (size bytes))) ;;
  if negb (r =? 0) then
    TRACE_ERROR_strerror_errno ;;; ret FALSE
  else
    ret TRUE.

Definition MapFile (filePath : string) : M Bool :=
  fd <- call (open filePath O_RDONLY) ;;
  if fd =? -1 then
    TRACE_ERROR_strerror_errno ;;; ret FALSE
  else
    st <- call (fstat fd) ;;
    if fst st =? -1 then
      TRACE_ERROR_strerror_errno ;;;
      call (close fd) ;;;
      ret FALSE
    else
      let size := to_size_t (snd st) in
      if size =? 0 then
        call (close fd) ;;;
        set_size 0 ;;;
        set_base NULL ;;;
        ret TRUE
      else
        let largePages := if LARGE_PAGES then MAP_HUGETLB else 0 in
        data <- call (mmap NULL size PROT_READ (MAP_PRIVATE .| largePages)
                           fd 0) ;;
        if data =? MAP_FAILED then
          TRACE_ERROR_strerror_errno ;;;
          call (close fd) ;;;
          ret FALSE
        else
          set_size (to_Uint64 size) ;;;
          set_base data ;;;
          call (close fd) ;;;
          ret TRUE.

Definition UnmapFile (fileMap : Bytes) : M Bool :=
  if base fileMap =? NULL then
    ret TRUE
  else
    r <- call (munmap (base fileMap) (to_size_t (size fileMap))) ;;
    if r =? -1 then
      TRACE_ERROR_strerror_errno ;;; ret FALSE
    else
      ret TRUE.
End Backend.
End Unix.

(** ** Backend selection *)

(** Exactly one backend is compiled: [_WIN32] (with or without [UNICODE])
    or [__unix__]. *)
Inductive Platform : Type :=
  | Windows (UNICODE : bool)
  | Posix.

Section Selected.
Variable pf : Platform.
Variable LARGE_PAGES : bool.

Definition Alloc (size : Z) : M Bool :=
  match pf with
  | Windows u => Win32.Alloc LARGE_PAGES u size
  | Posix => Unix.Alloc LARGE_PAGES size
  end.

Definition Free (bytes : Bytes) : M Bool :=
  match pf with
  | Windows u => Win32.Free u bytes
  | Posix => Unix.Free bytes
  end.

Definition MapFile (filePath : string) : M Bool :=
  match pf with
  | Windows u => Win32.MapFile LARGE_PAGES u filePath
  | Posix => Unix.MapFile LARGE_PAGES filePath
  end.

Definition UnmapFile (fileMap : Bytes) : M Bool :=
  match pf with
  | Windows u => Win32.UnmapFile u fileMap
  | Posix => Unix.UnmapFile fileMap
  end.
End Selected.

(** ** Reading a log *)

(** Kinds of calls: the caller's sink; the native memory-mapping calls;
    the native allocation calls; the native releases of memory or of a
    view; the closing of a handle or descriptor; the size queries; and the
    calls that produce the error text, the sink included. *)
Definition report_call (c : Call) : bool :=
  match c with TRACE_ERROR _ => true | _ => false end.

Definition mapping_call (c : Call) : bool :=
  match c with
  | CreateFileMapping _ _ _ _ _ _ | MapViewOfFile _ _ _ _ _
  | mmap _ _ _ _ _ _ => true
  | _ => false
  end.

Definition alloc_call (c : Call) : bool :=
  match c with
  | VirtualAlloc _ _ _ _ | mmap _ _ _ _ _ _ => true
  | _ => false
  end.

Definition release_call (c : Call) : bool :=
  match c with
  | VirtualFree _ _ _ | UnmapViewOfFile _ | munmap _ _ => true
  | _ => false
  end.

Definition close_call (c : Call) : bool :=
  match c with
  | CloseHandle _ | close _ => true
  | _ => false
  end.

Definition size_query (c : Call) : bool :=
  match c with
  | GetFileSize _ _ | fstat _ => true
  | _ => false
  end.

Definition reporting_call (c : Call) : bool :=
  match c with
  | GetLastError | FormatMessage _ _ _ _ _ | WideCharToMultiByte _ _ _ _ _
  | errno | strerror _ | TRACE_ERROR _ => true
  | _ => false
  end.

(** The calls that hand out memory: a block or a view. *)
Definition memory_call (c : Call) : bool :=
  match c with
  | VirtualAlloc _ _ _ _ | MapViewOfFile _ _ _ _ _ | mmap _ _ _ _ _ _ => true
  | _ => false
  end.

Definition is_report (e : Event) : bool := report_call (ev_call e).
Definition is_mapping_call (e : Event) : bool := mapping_call (ev_call e).
Definition is_release_call (e : Event) : bool := release_call (ev_call e).
Definition is_close_call (e : Event) : bool := close_call (ev_call e).
Definition is_reporting (e : Event) : bool := reporting_call (ev_call e).

(** The event asks for memory or a mapping object backed by huge pages. *)
Definition asks_huge_pages (e : Event) : bool :=
  match ev_call e with
  | VirtualAlloc _ _ ty _ => negb (Z.land ty WinH.MEM_LARGE_PAGES =? 0)
  | CreateFileMapping _ _ prot _ _ _ =>
      negb (Z.land prot WinH.SEC_LARGE_PAGES =? 0)
  | mmap _ _ _ flags _ _ => negb (Z.land flags UnixH.MAP_HUGETLB =? 0)
  | _ => false
  end.

Definition count (p : Event -> bool) (tr : list Event) : nat :=
  List.length (filter p tr).

(** The handle or descriptor an event acquires, if it does. *)
Definition acquires (e : Event) : option Z :=
  match e with
  | Ev (CreateFile _ _ _ _ _ _ _) h =>
      if h =? WinH.INVALID_HANDLE_VALUE then None else Some h
  | Ev (CreateFileMapping _ _ _ _ _ _) h =>
      if h =? NULL then None else Some h
  | Ev (open _ _) fd => if fd =? -1 then None else Some fd
  | _ => None
  end.

(** The handle or descriptor an event gives back, if it does. *)
Definition releases (e : Event) : option Z :=
  match ev_call e with
  | CloseHandle h => Some h
  | close fd => Some fd
  | _ => None
  end.

Fixpoint remove_one (h : Z) (l : list Z) : list Z :=
  match l with
  | [] => []
  | x :: l' => if x =? h then l' else x :: remove_one h l'
  end.

(** The handles and descriptors still open after a log, oldest first. *)
Fixpoint held_from (acc : list Z) (tr : list Event) : list Z :=
  match tr with
  | [] => acc
  | e :: tr' =>
      let acc1 := match acquires e with Some h => acc ++ [h] | None => acc end in
      let acc2 := match releases e with Some h => remove_one h acc1 | None => acc1 end in
      held_from acc2 tr'
  end.

Definition held (tr : list Event) : list Z := held_from [] tr.

(** The file length an event reports, if it is a size query that the
    operation takes as answered. *)
Definition size_reported (e : Event) : option Z :=
  match e with
  | Ev (GetFileSize _ _) n => Some (to_DWORD n)
  | Ev (fstat _) st =>
      if fst st =? -1 then None else Some (to_size_t (snd st))
  | _ => None
  end.

(** The length the first answered size query of a log reports. *)
Fixpoint size_determined (tr : list Event) : option Z :=
  match tr with
  | [] => None
  | e :: tr' =>
      match size_reported e with
      | Some n => Some n
      | None => size_determined tr'
      end
  end.

(** The integer a call hands back. *)
Definition status (e : Event) : option Z :=
  match e with
  | Ev GetLastError r | Ev errno r => Some r
  | Ev (FormatMessage _ _ _ _ _) r => Some (to_DWORD (fst r))
  | Ev (MultiByteToWideChar _ _ _ _ _) r => Some (fst r)
  | Ev (VirtualAlloc _ _ _ _) r | Ev (VirtualFree _ _ _) r
  | Ev (CreateFile _ _ _ _ _ _ _) r | Ev (CloseHandle _) r
  | Ev (CreateFileMapping _ _ _ _ _ _) r | Ev (MapViewOfFile _ _ _ _ _) r
  | Ev (UnmapViewOfFile _) r => Some r
  | Ev (GetFileSize _ _) r => Some (to_DWORD r)
  | Ev (mmap _ _ _ _ _ _) r | Ev (munmap _ _) r | Ev (open _ _) r
  | Ev (close _) r => Some r
  | Ev (fstat _) r => Some (fst r)
  | _ => None
  end.

(** The value by which a call signals failure, as its platform documents
    it. *)
Definition failure_value (c : Call) : option Z :=
  match c with
  | FormatMessage _ _ _ _ _ | MultiByteToWideChar _ _ _ _ _
  | VirtualAlloc _ _ _ _ | VirtualFree _ _ _ | CloseHandle _
  | CreateFileMapping _ _ _ _ _ _ | MapViewOfFile _ _ _ _ _
  | UnmapViewOfFile _ => Some 0
  | CreateFile _ _ _ _ _ _ _ => Some WinH.INVALID_HANDLE_VALUE
  | GetFileSize _ _ => Some WinH.INVALID_FILE_SIZE
  | mmap _ _ _ _ _ _ => Some UnixH.MAP_FAILED
  | munmap _ _ | open _ _ | fstat _ | close _ => Some (-1)
  | _ => None
  end.

Definition failed (e : Event) : bool :=
  match failure_value (ev_call e), status e with
  | Some v, Some r => r =? v
  | _, _ => false
  end.

(** The event hands out memory that stays with the process. *)
Definition establishes (e : Event) : bool :=
  memory_call (ev_call e) && negb (failed e).

(** The native calls whose failure the operations test. *)
Definition tested_call (c : Call) : bool :=
  match c with
  | MultiByteToWideChar _ _ _ _ _ | VirtualAlloc _ _ _ _ | VirtualFree _ _ _
  | CreateFile _ _ _ _ _ _ _ | CreateFileMapping _ _ _ _ _ _
  | MapViewOfFile _ _ _ _ _ | UnmapViewOfFile _
  | mmap _ _ _ _ _ _ | munmap _ _ | open _ _ | fstat _ => true
  | _ => false
  end.

(** A failure is surfaced at once: after the first tested call that
    failed, the log holds nothing but the production of the error text,
    the sink and the closing of handles; no native call is tried again. *)
Fixpoint surfaced (tr : list Event) : bool :=
  match tr with
  | [] => true
  | e :: tr' =>
      if tested_call (ev_call e) && failed e
      then forallb (fun x => is_reporting x || is_close_call x) tr'
      else surfaced tr'
  end.


(** The lengths the size queries of a log report, in order. *)
Fixpoint sizes_reported (tr : list Event) : list Z :=
  match tr with
  | [] => []
  | e :: tr' =>
      match size_reported e with
      | Some n => n :: sizes_reported tr'
      | None => sizes_reported tr'
      end
  end.

(** The size queries of a log all report one length. *)
Definition steady (tr : list Event) : bool :=
  match sizes_reported tr with
  | [] => true
  | n :: l => forallb (Z.eqb n) l
  end.

(** No call that hands out memory has answered the null address. *)
Definition null_free (tr : list Event) : bool :=
  forallb (fun e => negb (memory_call (ev_call e)) ||
                    negb (match status e with Some r => r =? NULL | None => false end))
          tr.

(** The address a release call is made on. *)
Definition release_target (e : Event) : option Z :=
  match ev_call e with
  | VirtualFree a _ _ | UnmapViewOfFile a | munmap a _ => Some a
  | _ => None
  end.

(** The empty sentinel: [base = NULL], [size = 0]. *)
Definition sentinel : Bytes := mkBytes NULL 0.

(** ** Sample hosts *)

(** A host whose answers do not depend on the history: [ints] gives the
    integer of every call, [st_size] is what [fstat] stores, and the text
    calls hand back [text] or convert their argument unchanged. *)
Definition host (ints : Call -> Z) (st_size : Z) (text : string) : OS :=
  fun _ c =>
    match c return Ans c with
    | GetLastError => ints GetLastError
    | FormatMessage a b d e f => (ints (FormatMessage a b d e f), text)
    | WideCharToMultiByte _ _ w _ _ => w
    | MultiByteToWideChar a b s d e => (ints (MultiByteToWideChar a b s d e), s)
    | VirtualAlloc a b d e => ints (VirtualAlloc a b d e)
    | VirtualFree a b d => ints (VirtualFree a b d)
    | CreateFile n a b d e f g => ints (CreateFile n a b d e f g)
    | GetFileSize a b => ints (GetFileSize a b)
    | CloseHandle a => ints (CloseHandle a)
    | CreateFileMapping a b d e f g => ints (CreateFileMapping a b d e f g)
    | MapViewOfFile a b d e f => ints (MapViewOfFile a b d e f)
    | UnmapViewOfFile a => ints (UnmapViewOfFile a)
    | mmap a b d e f g => ints (mmap a b d e f g)
    | munmap a b => ints (munmap a b)
    | open n a => ints (open n a)
    | fstat a => (ints (fstat a), st_size)
    | close a => ints (close a)
    | errno => ints errno
    | strerror _ => text
    | TRACE_ERROR _ => tt
    end.

(** Every call succeeds, on a file of [n] bytes: [GetFileSize] hands back
    the low-order doubleword of the length. *)
Definition healthy (n : Z) (c : Call) : Z :=
  match c with
  | FormatMessage _ _ _ _ _ => 24
  | MultiByteToWideChar _ _ _ _ _ => 12
  | VirtualAlloc _ _ _ _ => 0x10000
  | VirtualFree _ _ _ => 1
  | CreateFile _ _ _ _ _ _ _ => 0x64
  | GetFileSize _ _ => n mod 2 ^ 32
  | CloseHandle _ => 1
  | CreateFileMapping _ _ _ _ _ _ => 0x68
  | MapViewOfFile _ _ _ _ _ => 0x20000
  | UnmapViewOfFile _ => 1
  | mmap _ _ _ _ _ _ => 0x7f0000000000
  | open _ _ => 3
  | _ => 0
  end.

(** [ints], except that the calls selected by [p] answer with the value
    by which they signal failure. *)
Definition failing (p : Call -> bool) (ints : Call -> Z) (c : Call) : Z :=
  if p c then
    match failure_value c with Some v => v | None => ints c end
  else ints c.

Definition no_file : Bytes := mkBytes 0xdead 0xbeef.

(** ** Corresponding hosts *)

(** What the native calls of one operation come to, whichever platform
    makes them: the address of the block granted, whether a release goes
    through, the handle or descriptor of the opened file, the length the
    size query determines, the mapping object (Win32 only; POSIX maps in
    one call, which fails when either Win32 step would), the address of
    the view, and whether the path converts (Win32 [UNICODE] builds only;
    the other builds have no such step).  [None] is a failure. *)
Record Outcomes := mkOutcomes {
  block : option Z;
  released : bool;
  handle : option Z;
  length_found : option Z;
  object : option Z;
  view : option Z;
  converted : bool
}.

Definition or_else (o : option Z) (d : Z) : Z :=
  match o with Some v => v | None => d end.

(** The answers of both platforms to the outcomes [o]. *)
Definition answers (o : Outcomes) (c : Call) : Z :=
  match c with
  | FormatMessage _ _ _ _ _ => 1
  | MultiByteToWideChar _ _ _ _ _ => if converted o then 1 else 0
  | VirtualAlloc _ _ _ _ => or_else (block o) NULL
  | VirtualFree _ _ _ | UnmapViewOfFile _ => if released o then 1 else 0
  | CreateFile _ _ _ _ _ _ _ => or_else (handle o) WinH.INVALID_HANDLE_VALUE
  | GetFileSize _ _ => or_else (length_found o) WinH.INVALID_FILE_SIZE
  | CreateFileMapping _ _ _ _ _ _ => or_else (object o) NULL
  | MapViewOfFile _ _ _ _ _ => or_else (view o) NULL
  | mmap _ _ _ _ fd _ =>
      if fd =? -1 then or_else (block o) UnixH.MAP_FAILED
      else match object o with
           | Some _ => or_else (view o) UnixH.MAP_FAILED
           | None => UnixH.MAP_FAILED
           end
  | munmap _ _ => if released o then 0 else -1
  | open _ _ => or_else (handle o) (-1)
  | fstat _ => match length_found o with Some _ => 0 | None => -1 end
  | _ => 0
  end.

Definition host_of (o : Outcomes) : OS :=
  host (answers o) (or_else (length_found o) 0) "error".

(** Addresses and handles are none of the values that signal failure. *)
Definition valid_address (o : option Z) : Prop :=
  forall p, o = Some p -> p <> NULL /\ p <> UnixH.MAP_FAILED.

Definition valid_file (o : option Z) : Prop :=
  forall h, o = Some h -> h <> -1 /\ h <> WinH.INVALID_HANDLE_VALUE.

Definition valid_object (o : option Z) : Prop :=
  forall h, o = Some h -> h <> NULL.

(** ** Observations *)

(** What a caller can observe of a run: the boolean, the output struct
    and the number of times the sink was invoked. *)
Definition observed (os : OS) (m : M Bool) (b : Bytes) : Bool * Bytes * nat :=
  (result os m b, region os m b, count is_report (calls os m b)).

(** The sink is invoked once when the run returns [FALSE] and not at all
    when it returns [TRUE], and a failure is surfaced at once. *)
Definition reported_once (os : OS) (m : M Bool) (b : Bytes) : Prop :=
  count is_report (calls os m b) = (if result os m b then 0 else 1)%nat /\
  surfaced (calls os m b) = true.

(** ** One operation after another *)

(** A caller runs [m1] and then, in the same process, [m2] on the struct
    [m1] left behind (the struct is passed by value to [Free] and
    [UnmapFile]). *)
Definition after {A B} (os : OS) (m1 : M A) (m2 : Bytes -> M B) (b : Bytes)
  : B * State :=
  let s1 := snd (run os m1 b) in
  exec os (m2 (out s1)) s1.

(** The release [r] gives back what the call [g] handed out, by the rule
    of its platform: [VirtualFree] on the address with size 0 and
    [MEM_RELEASE], [UnmapViewOfFile] on the address of the view, [munmap]
    on the address and the length that was mapped. *)
Definition gives_back (g r : Event) : bool :=
  match ev_call g, ev_call r, status g with
  | VirtualAlloc _ _ _ _, VirtualFree a n ty, Some p =>
      (a =? p) && (n =? 0) && (ty =? WinH.MEM_RELEASE)
  | MapViewOfFile _ _ _ _ _, UnmapViewOfFile a, Some p => a =? p
  | mmap _ len _ _ _ _, munmap a n, Some p => (a =? p) && (n =? len)
  | _, _, _ => false
  end.

(** The events that hand out or give back memory. *)
Definition is_memory_event (e : Event) : bool :=
  memory_call (ev_call e) || is_release_call e.

(** The call asks for nothing beyond reading an existing file: the file is
    opened for reading and never created, the mapping object and the view
    are read-only, the POSIX mapping is private and readable only. *)
Definition read_only (c : Call) : bool :=
  match c with
  | CreateFile _ access _ _ disposition _ _ =>
      (access =? WinH.GENERIC_READ) && (disposition =? WinH.OPEN_EXISTING)
  | CreateFileMapping _ _ prot _ _ _ =>
      Z.land prot 0xFF =? WinH.PAGE_READONLY
  | MapViewOfFile _ access _ _ _ => access =? WinH.FILE_MAP_READ
  | mmap _ _ prot flags _ _ =>
      (prot =? UnixH.PROT_READ) &&
      negb (Z.land flags UnixH.MAP_PRIVATE =? 0)
  | open _ flags => flags =? UnixH.O_RDONLY
  | _ => true
  end.

(** The calls that carry the page-size flag of the build. *)
Definition carries_page_flag (c : Call) : bool :=
  match c with
  | VirtualAlloc _ _ _ _ | CreateFileMapping _ _ _ _ _ _
  | mmap _ _ _ _ _ _ => true
  | _ => false
  end.

(** The file an event opens, if it opens one. *)
Definition file_opened (e : Event) : option string :=
  match ev_call e with
  | CreateFile name _ _ _ _ _ _ => Some name
  | open name _ => Some name
  | _ => None
  end.

(** Reading the pieces of a report off the log. *)
Definition as_errno (e : Event) : option Z :=
  match e with Ev errno r => Some r | _ => None end.

Definition as_strerror (e : Event) : option (Z * string) :=
  match e with Ev (strerror n) msg => Some (n, msg) | _ => None end.

Definition as_GetLastError (e : Event) : option Z :=
  match e with Ev GetLastError r => Some r | _ => None end.

(** The message asked of [FormatMessage], the count it answered and the
    text it left in the buffer. *)
Definition as_FormatMessage (e : Event) : option (Z * Z * string) :=
  match e with
  | Ev (FormatMessage _ _ id _ _) r => Some (id, to_DWORD (fst r), snd r)
  | _ => None
  end.

Definition as_WideCharToMultiByte (e : Event) : option (string * string) :=
  match e with
  | Ev (WideCharToMultiByte _ _ w _ _) s => Some (w, s)
  | _ => None
  end.

Definition as_report (e : Event) : option string :=
  match ev_call e with TRACE_ERROR t => Some t | _ => None end.

(** [f] is a call the operation tests, the error number is read in the
    very next call, and the sink is given what [strerror] answered for
    that number. *)
Definition posix_chain (f e1 e2 e3 : Event) : bool :=
  tested_call (ev_call f) &&
  match as_errno e1, as_strerror e2, as_report e3 with
  | Some err, Some (n, msg), Some t => (n =? err) && String.eqb t msg
  | _, _, _ => false
  end.

(** Somewhere in the log a tested call is followed at once by such a
    report, and after the report only handles are closed. *)
Fixpoint posix_reported_at_once (tr : list Event) : bool :=
  match tr with
  | f :: tl =>
      match tl with
      | e1 :: e2 :: e3 :: post =>
          posix_chain f e1 e2 e3 && forallb is_close_call post
      | _ => false
      end || posix_reported_at_once tl
  | [] => false
  end.

(** The text [TraceError] owes the sink for what [FormatMessage] answered:
    the fixed text when it formatted nothing, else the buffer, converted
    when the build is [UNICODE]. *)
Definition win_text_ok (UNICODE : bool) (fm : Z * Z * string)
           (rest : list Event) : bool :=
  let '(_, n, tstr) := fm in
  if n =? 0 then
    match rest with
    | e :: post =>
        match as_report e with
        | Some t =>
            String.eqb t "Could not format a human readable error message"
            && forallb is_close_call post
        | None => false
        end
    | [] => false
    end
  else if UNICODE then
    match rest with
    | c :: e :: post =>
        match as_WideCharToMultiByte c, as_report e with
        | Some (w, s), Some t =>
            String.eqb w tstr && String.eqb t s && forallb is_close_call post
        | _, _ => false
        end
    | _ => false
    end
  else
    match rest with
    | e :: post =>
        match as_report e with
        | Some t => String.eqb t tstr && forallb is_close_call post
        | None => false
        end
    | [] => false
    end.

(** Somewhere in the log a tested call is followed at once by
    [GetLastError], [FormatMessage] is asked about the code it answered,
    the sink is given the text owed, and then only handles are closed. *)
Fixpoint win_reported_at_once (UNICODE : bool) (tr : list Event) : bool :=
  match tr with
  | f :: tl =>
      match tl with
      | e1 :: e2 :: rest =>
          tested_call (ev_call f) &&
          match as_GetLastError e1, as_FormatMessage e2 with
          | Some err, Some fm =>
              (fst (fst fm) =? err) && win_text_ok UNICODE fm rest
          | _, _ => false
          end
      | _ => false
      end || win_reported_at_once UNICODE tl
  | [] => false
  end.

Definition reported_at_once (pf : Platform) (tr : list Event) : bool :=
  match pf with
  | Windows u => win_reported_at_once u tr
  | Posix => posix_reported_at_once tr
  end.
(** The names of the files a log opens, in order. *)
Fixpoint files_opened (tr : list Event) : list string :=
  match tr with
  | [] => []
  | e :: tr' =>
      match file_opened e with
      | Some name => name :: files_opened tr'
      | None => files_opened tr'
      end
  end.

(** The name [MapFile] hands to the native open: the path itself, or on
    a [UNICODE] build what [MultiByteToWideChar] made of it, which is
    asked first. *)
Definition name_handed_on (pf : Platform) (os : OS) (filePath : string)
  : string :=
  match pf with
  | Windows true =>
      snd (os [] (MultiByteToWideChar WinH.CP_ACP 0 filePath (-1)
                    WinH.MAX_PATH))
  | _ => filePath
  end.

(** On a [UNICODE] build the conversion of the path fails. *)
Definition conversion_fails (pf : Platform) (os : OS) (filePath : string)
  : bool :=
  match pf with
  | Windows true =>
      fst (os [] (MultiByteToWideChar WinH.CP_ACP 0 filePath (-1)
                    WinH.MAX_PATH)) =? 0
  | _ => false
  end.

(** ** The file on the host *)

(** What the host has to say about the file at [filePath], asked the way
    the platform asks: the length it reports once the path is converted
    (on a [UNICODE] build) and the file opened for reading.  [None] when
    the path does not convert, the file does not open or [fstat] fails.
    This reads the host only; it is no part of any operation. *)
Definition length_on_host (pf : Platform) (os : OS) (filePath : string)
  : option Z :=
  match pf with
  | Windows u =>
      let conv :=
        MultiByteToWideChar WinH.CP_ACP 0 filePath (-1) WinH.MAX_PATH in
      let tr0 := if u then [Ev conv (os [] conv)] else [] in
      if u && (fst (os [] conv) =? 0) then None
      else
        let c := CreateFile (if u then snd (os [] conv) else filePath)
                   WinH.GENERIC_READ 0 NULL WinH.OPEN_EXISTING
                   WinH.FILE_ATTRIBUTE_NORMAL NULL in
        let h := os tr0 c in
        if h =? WinH.INVALID_HANDLE_VALUE then None
        else Some (to_DWORD (os (tr0 ++ [Ev c h]) (GetFileSize h NULL)))
  | Posix =>
      let c := open filePath UnixH.O_RDONLY in
      let fd := os [] c in
      if fd =? -1 then None
      else
        let st := os [Ev c fd] (fstat fd) in
        if fst st =? -1 then None else Some (to_size_t (snd st))
  end.

(** A region of the data model: [size = 0] exactly when [base = NULL]. *)
Definition well_formed (r : Bytes) : Prop := size r = 0 <-> base r = NULL.

(** ** The demonstration programs *)

(** What the demonstration programs do beside the four operations: they
    print and they fill memory.  An argument of [printf] is an integer, a
    text the program holds, or a pointer to characters in memory. *)
Inductive Arg : Type :=
  | Int (n : Z)
  | Text (s : string)
  | Chars (p : Z).

Inductive Action : Type :=
  | printf (format : string) (args : list Arg)
  | memset (s c n : Z).

(** [(int) x]: the low 32 bits, signed. *)
Definition to_int (x : Z) : Z := (x + 2 ^ 31) mod 2 ^ 32 - 2 ^ 31.

(** A process: the state of its run on the host and what it printed and
    filled, in order. *)
Record Process := mkProcess { machine : State; libc : list Action }.

(** [demo/1_alloc_and_free.c]; [LARGE_PAGES] is not defined there. *)
Module Demo1.
Definition main (pf : Platform) (os : OS) (bytes : Bytes) : Process :=
  let size := 256 in
  let (ok, s) := exec os (Alloc pf false size) (mkState bytes []) in
  if negb ok then
    mkProcess s
      [printf "[ERROR] Could not allocate `%llu` bytes of memory\n"
         [Int size]]
  else
    let 'mkBytes bytes_base bytes_size := out s in
    let done :=
      [memset bytes_base 69 bytes_size;
       printf "bytes[%llu]=%.*s\n"
         [Int bytes_size; Int (to_int bytes_size); Chars bytes_base]] in
    let (ok', s') := exec os (Free pf (out s)) s in
    if negb ok' then
      mkProcess s'
        (done ++
         [printf "[ERROR] Could not free `%lld` bytes of memory\n"
            [Int size]])
    else
      mkProcess s' done.
End Demo1.

(** [demo/2_map_and_unmap_file.c]; [LARGE_PAGES] is not defined there.
    [fileMap] is what the uninitialised local struct happens to hold. *)
Module Demo2.
Definition MapAndUnmapFile (pf : Platform) (os : OS) (filePath : string)
           (fileMap : Bytes) (p : Process) : Process :=
  let (ok, s) :=
    exec os (MapFile pf false filePath)
      (mkState fileMap (trace (machine p))) in
  if negb ok then
    mkProcess s
      (libc p ++
       [printf "[ERROR] Could not map file `%s` into memory\n"
          [Text filePath]])
  else
    let shown := [printf "%s:\n%s" [Text filePath; Chars (base (out s))]] in
    let (ok', s') := exec os (UnmapFile pf (out s)) s in
    if negb ok' then
      mkProcess s'
        (libc p ++ shown ++
         [printf "[ERROR] Could not unmap file `%s` from memory\n"
            [Text filePath]])
    else
      mkProcess s' (libc p ++ shown).

Definition main (pf : Platform) (os : OS) (fileMap1 fileMap2 : Bytes)
  : Process :=
  let p0 := mkProcess (mkState fileMap1 []) [] in
  let p1 := MapAndUnmapFile pf os "./demo/lorem_ipsum" fileMap1 p0 in
  MapAndUnmapFile pf os "./demo/empty_file" fileMap2 p1.
End Demo2.

(** The blocks and views a log hands out: address and length asked. *)
Definition granted (e : Event) : option (Z * Z) :=
  match ev_call e, status e with
  | VirtualAlloc _ n _ _, Some p => if failed e then None else Some (p, n)
  | mmap _ n _ _ _ _, Some p => if failed e then None else Some (p, n)
  | _, _ => None
  end.

(** The action is one of the program's own error lines. *)
Definition is_error_line (a : Action) : bool :=
  match a with
  | printf format _ => String.prefix "[ERROR]" format
  | memset _ _ _ => false
  end.

(** The pointers a log of actions hands to [printf] as characters. *)
Fixpoint chars_printed (l : list Action) : list Z :=
  match l with
  | [] => []
  | printf _ args :: l' =>
      flat_map (fun a => match a with Chars p => [p] | _ => [] end) args
      ++ chars_printed l'
  | memset _ _ _ :: l' => chars_printed l'
  end.

(** The ranges a log of actions fills. *)
Fixpoint filled (l : list Action) : list (Z * Z) :=
  match l with
  | [] => []
  | memset s _ n :: l' => (s, n) :: filled l'
  | printf _ _ :: l' => filled l'
  end.

(** The range was handed out by a call of the log. *)
Definition handed_out (tr : list Event) (r : Z * Z) : bool :=
  existsb (fun e => match granted e with
                    | Some (p, n) => (p =? fst r) && (n =? snd r)
                    | None => false
                    end) tr.

(** ** Proof support *)

(** Flag words and wrap-arounds stay folded while a run is explored. *)
#[local] Arguments Z.lor : simpl never.
#[local] Arguments Z.land : simpl never.
#[local] Arguments Z.modulo : simpl never.
#[local] Arguments Z.eqb : simpl never.

Ltac unfold_ops :=
  unfold result, region, calls, run,
    Alloc, Free, MapFile, UnmapFile,
    Win32.Alloc, Win32.Free, Win32.MapFile, Win32.MapFile_open,
    Win32.UnmapFile, Win32.TraceError,
    Unix.Alloc, Unix.Free, Unix.MapFile, Unix.UnmapFile,
    Unix.TRACE_ERROR_strerror_errno,
    ret, call, set_size, set_base.

(** Split on a test of the run, innermost first. *)
Ltac branch :=
  match goal with
  | |- context [if ?b then _ else _] =>
      lazymatch b with
      | context [if _ then _ else _] => fail
      | _ => destruct b eqn:?
      end
  end.

(** Replace the answers of the host by variables, innermost first. *)
Ltac name_answers :=
  repeat match goal with
  | H : OS |- _ =>
      match goal with
      | |- context [H ?tr ?c] =>
          lazymatch tr with context [H] => fail | _ => idtac end;
          lazymatch c with context [H] => fail | _ => idtac end;
          let a := fresh "a" in
          generalize (H tr c); intro a; cbn in a |- *
      end
  end.

(** Follow every path of the run in the goal. *)
Ltac explore :=
  unfold_ops; cbn;
  repeat first [ progress name_answers
               | progress (rewrite ?Z.eqb_refl; cbn)
               | branch; cbn ].

(** Turn the recorded outcomes of the tests into propositions. *)
Ltac tests :=
  repeat match goal with
  | H : (_ =? _) = true |- _ => apply Z.eqb_eq in H
  | H : (_ =? _) = false |- _ => apply Z.eqb_neq in H
  | H : negb _ = true |- _ => apply negb_true_iff in H
  | H : negb _ = false |- _ => apply negb_false_iff in H
  end.

(** Use the recorded outcome of a test where the test occurs again. *)
Ltac recall_tests :=
  repeat match goal with
  | H : ?t = _ |- context [?t] =>
      lazymatch t with (_ =? _) => rewrite H end
  end.

(** A valid address or handle was taken for a failure value. *)
Ltac contradict_failure :=
  exfalso;
  change UnixH.MAP_FAILED with 18446744073709551615 in *;
  change WinH.INVALID_HANDLE_VALUE with 18446744073709551615 in *;
  lia.

Ltac settle := intros; tests; subst; try discriminate; try congruence.

(** *** Runs *)

(** A run of [m] followed by [f] is the run of [m], then of [f] on what
    [m] returned and from the state [m] left. *)
Lemma exec_bind {A B} (os : OS) (m : M A) (f : A -> M B) (s : State) :
  exec os (bind m f) s =
  let (a, s') := exec os m s in exec os (f a) s'.
Proof.
  revert s. induction m as [a | c k IH | g k IH]; intros s; cbn.
  - reflexivity.
  - apply IH.
  - apply IH.
Qed.

(** A run only adds to the log. *)
Lemma exec_extends_trace {A} (os : OS) (m : M A) (s : State) :
  exists l, trace (snd (exec os m s)) = trace s ++ l.
Proof.
  revert s. induction m as [a | c k IH | g k IH]; intros s; cbn.
  - exists []. symmetry. apply app_nil_r.
  - destruct (IH (os (trace s) c)
                (mkState (out s) (trace s ++ [Ev c (os (trace s) c)])))
      as [l Hl].
    exists (Ev c (os (trace s) c) :: l).
    rewrite Hl. cbn. rewrite <- app_assoc. reflexivity.
  - destruct (IH (mkState (g (out s)) (trace s))) as [l Hl].
    exists l. exact Hl.
Qed.

(** The host is asked only through its answers: two hosts that agree on
    every history and call give the same run. *)
Lemma exec_ext {A} (os1 os2 : OS) (m : M A) (s : State) :
  (forall tr c, os1 tr c = os2 tr c) ->
  exec os1 m s = exec os2 m s.
Proof.
  intros E. revert s. induction m as [a | c k IH | g k IH]; intros s; cbn.
  - reflexivity.
  - rewrite E. apply IH.
  - apply IH.
Qed.

(** *** Fixed-width conversions *)

Lemma to_Uint64_to_size_t (x : Z) : to_Uint64 (to_size_t x) = to_size_t x.
Proof. unfold to_Uint64, to_size_t. apply Z.mod_mod. lia. Qed.

Lemma to_DWORD_range (x : Z) : 0 <= to_DWORD x < 2 ^ 32.
Proof. unfold to_DWORD. apply Z.mod_pos_bound. lia. Qed.

Lemma to_Uint64_to_DWORD (x : Z) : to_Uint64 (to_DWORD x) = to_DWORD x.
Proof.
  unfold to_Uint64. apply Z.mod_small.
  pose proof (to_DWORD_range x). lia.
Qed.

(** *** The reporter *)

(** [TraceError] invokes the sink exactly once, whatever [FormatMessage]
    answers, writes nothing to the output struct, and calls nothing but
    the production of the error text. *)
Lemma TraceError_reports_once (u : bool) (os : OS) (s : State) :
  out (snd (exec os (Win32.TraceError u) s)) = out s /\
  exists l,
    trace (snd (exec os (Win32.TraceError u) s)) = trace s ++ l /\
    count is_report l = 1%nat /\ forallb is_reporting l = true.
Proof.
  destruct u; explore.
  all: split; [reflexivity|].
  all: rewrite <- ?app_assoc; cbn.
  all: eexists; split; [reflexivity|]; split; reflexivity.
Qed.

Lemma TRACE_ERROR_strerror_errno_reports_once (os : OS) (s : State) :
  out (snd (exec os Unix.TRACE_ERROR_strerror_errno s)) = out s /\
  exists l,
    trace (snd (exec os Unix.TRACE_ERROR_strerror_errno s)) = trace s ++ l /\
    count is_report l = 1%nat /\ forallb is_reporting l = true.
Proof.
  explore. split; [reflexivity|].
  rewrite <- ?app_assoc; cbn.
  eexists; split; [reflexivity|]; split; reflexivity.
Qed.

(** ** C1: the zero-length file *)

(** Name the answers of the host and keep what each one answers, so that
    a premise on the host and the run speak of the same answers. *)
Ltac name_answers_linked :=
  repeat match goal with
  | H : OS |- _ =>
      match goal with
      | |- context [H ?tr ?c] =>
          lazymatch tr with context [H] => fail | _ => idtac end;
          lazymatch c with context [H] => fail | _ => idtac end;
          let a := fresh "a" in
          remember (H tr c) as a in *; cbn in a |- *
      end
  end.

Ltac explore_linked :=
  unfold_ops; cbn;
  repeat first [ progress name_answers_linked
               | progress (rewrite ?Z.eqb_refl; cbn)
               | branch; cbn ].

(** C1. When the host reports a length of zero for the file, once it is
    opened, [MapFile] returns [TRUE], leaves the empty sentinel
    ([base = NULL], [size = 0]) in the output struct and makes no native
    memory-mapping call; its log holds the size query that reported the
    zero and no handle is left open.  On either backend, with or without
    [LARGE_PAGES] and [UNICODE]. *)
Theorem MapFile_zero_length_succeeds :
  forall (pf : Platform) (LP : bool) (os : OS) (path : string) (b : Bytes),
    length_on_host pf os path = Some 0 ->
    result os (MapFile pf LP path) b = TRUE /\
    region os (MapFile pf LP path) b = sentinel /\
    count is_mapping_call (calls os (MapFile pf LP path) b) = 0%nat /\
    size_determined (calls os (MapFile pf LP path) b) = Some 0 /\
    held (calls os (MapFile pf LP path) b) = [].
Proof.
  intros [[|]|] LP os path b.
  all: unfold length_on_host, held, count; explore_linked; settle.
  all: repeat split; try reflexivity; congruence.
Qed.

Lemma MapFile_zero_length_succeeds_witness :
  let os := host (healthy 0) 0 "error" in
  (result os (MapFile Posix false "./demo/empty_file") no_file = TRUE /\
   region os (MapFile Posix false "./demo/empty_file") no_file = sentinel) /\
  (result os (MapFile (Windows true) true "./demo/empty_file") no_file
     = TRUE /\
   region os (MapFile (Windows true) true "./demo/empty_file") no_file
     = sentinel).
Proof.
  intros os. split.
  - destruct (MapFile_zero_length_succeeds Posix false os
                "./demo/empty_file" no_file) as (R & S & _).
    + vm_compute; reflexivity.
    + split; assumption.
  - destruct (MapFile_zero_length_succeeds (Windows true) true os
                "./demo/empty_file" no_file) as (R & S & _).
    + vm_compute; reflexivity.
    + split; assumption.
Defined.

(** ** C2: unmapping *)

(** What [UnmapFile] does with a region, by its fields: on the sentinel it
    returns [TRUE] and makes no call; on a region with neither field zero
    it makes exactly one native release call, on [base], and returns
    [TRUE] exactly when that call does not answer with its failure
    value. *)
Lemma UnmapFile_by_fields :
  forall (pf : Platform) (os : OS) (fileMap b : Bytes),
    (fileMap = sentinel ->
       result os (UnmapFile pf fileMap) b = TRUE /\
       calls os (UnmapFile pf fileMap) b = []) /\
    (base fileMap <> NULL -> size fileMap <> 0 ->
       exists e,
         filter is_release_call (calls os (UnmapFile pf fileMap) b) = [e] /\
         release_target e = Some (base fileMap) /\
         (result os (UnmapFile pf fileMap) b = TRUE <-> failed e = false)).
Proof.
  intros pf os [p n] b; split.
  - intros E; injection E as -> ->. destruct pf; split; reflexivity.
  - cbn [base size]. intros Hp Hn.
    apply Z.eqb_neq in Hp, Hn.
    destruct pf as [u|].
    + unfold UnmapFile, Win32.UnmapFile; cbn [base size]; rewrite Hn.
      destruct u; explore.
      all: eexists; split; [reflexivity|]; cbn.
      all: split; [reflexivity|]; unfold failed; cbn.
      all: recall_tests; unfold TRUE, FALSE; split; congruence.
    + unfold UnmapFile, Unix.UnmapFile; cbn [base size]; rewrite Hp.
      explore.
      all: eexists; split; [reflexivity|]; cbn.
      all: split; [reflexivity|]; unfold failed; cbn.
      all: recall_tests; unfold TRUE, FALSE; split; congruence.
Qed.

(** C2. For every region of the data model ([size = 0] exactly when
    [base = NULL]): if it is the empty sentinel, [UnmapFile] returns
    [TRUE] without making any native call; if it is not, [UnmapFile]
    makes the native release call, exactly once and on [base], and
    returns [TRUE] exactly when that call succeeds.  On either backend
    and every host. *)
Theorem UnmapFile_sentinel_or_release :
  forall (pf : Platform) (os : OS) (fileMap b : Bytes),
    well_formed fileMap ->
    (fileMap = sentinel ->
       result os (UnmapFile pf fileMap) b = TRUE /\
       calls os (UnmapFile pf fileMap) b = []) /\
    (fileMap <> sentinel ->
       exists e,
         filter is_release_call (calls os (UnmapFile pf fileMap) b) = [e] /\
         release_target e = Some (base fileMap) /\
         (result os (UnmapFile pf fileMap) b = TRUE <-> failed e = false)).
Proof.
  intros pf os fileMap b [Hs Hb].
  destruct (UnmapFile_by_fields pf os fileMap b) as [Hsent Hbound].
  split; [exact Hsent|].
  intros Hne. apply Hbound.
  - intros Hp. apply Hne. destruct fileMap as [p n]; cbn in *.
    unfold sentinel. rewrite Hp, (Hb Hp). reflexivity.
  - intros Hn. apply Hne. destruct fileMap as [p n]; cbn in *.
    unfold sentinel. rewrite Hn, (Hs Hn). reflexivity.
Qed.

Lemma UnmapFile_sentinel_or_release_witness :
  (result (host (healthy 0) 0 "error") (UnmapFile Posix sentinel) no_file
     = TRUE /\
   calls (host (healthy 0) 0 "error") (UnmapFile Posix sentinel) no_file
     = []) /\
  (exists e,
     filter is_release_call
       (calls (host (healthy 5) 5 "error")
          (UnmapFile (Windows true) (mkBytes 0x20000 5)) no_file) = [e] /\
     release_target e = Some 0x20000 /\
     (result (host (healthy 5) 5 "error")
        (UnmapFile (Windows true) (mkBytes 0x20000 5)) no_file = TRUE
      <-> failed e = false)).
Proof.
  split.
  - apply (UnmapFile_sentinel_or_release Posix (host (healthy 0) 0 "error")
             sentinel no_file).
    + split; reflexivity.
    + reflexivity.
  - apply (UnmapFile_sentinel_or_release (Windows true)
             (host (healthy 5) 5 "error") (mkBytes 0x20000 5) no_file).
    + split; discriminate.
    + discriminate.
Defined.

(** ** C3: the two backends side by side *)

Section SideBySide.
Variable o : Outcomes.
Variable u LP : bool.
Variable b : Bytes.

Lemma Alloc_agrees (n : Z) :
  valid_address (block o) ->
  observed (host_of o) (Alloc (Windows u) LP n) b =
  observed (host_of o) (Alloc Posix LP n) b.
Proof.
  unfold valid_address, host_of, observed, count.
  destruct o as [[p|] r h l ob v cv]; cbn [block]; intros Hp.
  - destruct (Hp p eq_refl) as [H0 H1].
    destruct u; explore; settle; contradict_failure.
  - destruct u; explore; settle.
Qed.

Lemma Free_agrees (r : Bytes) :
  observed (host_of o) (Free (Windows u) r) b =
  observed (host_of o) (Free Posix r) b.
Proof.
  unfold host_of, observed, count.
  destruct o as [p [|] h l ob v cv]; destruct u; explore; settle.
Qed.

Lemma MapFile_agrees (path : string) (n : Z) :
  (u = true -> converted o = true) ->
  valid_file (handle o) -> valid_object (object o) ->
  valid_address (view o) ->
  length_found o = Some n -> 0 <= n < 2 ^ 32 ->
  observed (host_of o) (MapFile (Windows u) LP path) b =
  observed (host_of o) (MapFile Posix LP path) b.
Proof.
  unfold valid_file, valid_object, valid_address, host_of, observed, count.
  destruct o as [bl r h l ob v cv];
    cbn [handle object view length_found converted].
  intros Hc Hh Hob Hv -> Hn.
  assert (Ecv : u = true -> cv = true) by exact Hc.
  assert (E1 : to_DWORD n = n) by (apply Z.mod_small; lia).
  assert (E2 : to_size_t n = n) by (apply Z.mod_small; lia).
  assert (E3 : to_Uint64 n = n) by (apply Z.mod_small; lia).
  destruct h as [h|]; destruct ob as [m|]; destruct v as [p|].
  all: try destruct (Hh _ eq_refl); try pose proof (Hob _ eq_refl).
  all: try destruct (Hv _ eq_refl).
  all: destruct u; [rewrite (Ecv eq_refl) | ]; clear Hc Ecv.
  all: explore; intros; tests.
  all: rewrite ?E1, ?E2, ?E3 in *; try congruence; try contradict_failure.
Qed.

Lemma UnmapFile_agrees (r : Bytes) :
  (size r = 0 <-> base r = NULL) ->
  observed (host_of o) (UnmapFile (Windows u) r) b =
  observed (host_of o) (UnmapFile Posix r) b.
Proof.
  unfold host_of, observed, count. destruct r as [p n]; cbn [base size].
  intros [H1 H2].
  destruct o as [bl [|] h l ob v cv]; destruct u; explore; settle.
  all: try (exfalso; tauto).
  all: try reflexivity.
Qed.
End SideBySide.

(** C3, as amended.  When the native calls of the two platforms come to
    the same outcomes, the addresses and handles they hand out are none of
    the failure values, the size query succeeds with a length below 2^32,
    on a [UNICODE] build the conversion of the path succeeds, and the
    region given to [UnmapFile] has [size = 0] exactly when
    [base = NULL], the Win32 and the POSIX backend of [Alloc], [Free],
    [MapFile] and [UnmapFile] return the same boolean, leave the same
    region in the output struct and invoke the sink the same number of
    times, with and without [LARGE_PAGES]. *)
Theorem backends_agree :
  forall (o : Outcomes) (u LP : bool) (b : Bytes),
    (forall n,
       valid_address (block o) ->
       observed (host_of o) (Alloc (Windows u) LP n) b =
       observed (host_of o) (Alloc Posix LP n) b) /\
    (forall r,
       observed (host_of o) (Free (Windows u) r) b =
       observed (host_of o) (Free Posix r) b) /\
    (forall path n,
       (u = true -> converted o = true) ->
       valid_file (handle o) -> valid_object (object o) ->
       valid_address (view o) ->
       length_found o = Some n -> 0 <= n < 2 ^ 32 ->
       observed (host_of o) (MapFile (Windows u) LP path) b =
       observed (host_of o) (MapFile Posix LP path) b) /\
    (forall r,
       well_formed r ->
       observed (host_of o) (UnmapFile (Windows u) r) b =
       observed (host_of o) (UnmapFile Posix r) b).
Proof.
  intros o u LP b. repeat split.
  - intros n. apply Alloc_agrees.
  - intros r. apply Free_agrees.
  - intros path n. apply MapFile_agrees.
  - intros r. apply UnmapFile_agrees.
Qed.

Lemma backends_agree_witness :
  let o := mkOutcomes (Some 0x10000) true (Some 3) (Some 446) (Some 0x68)
             (Some 0x20000) true in
  observed (host_of o) (Alloc (Windows true) true 4096) no_file =
  observed (host_of o) (Alloc Posix true 4096) no_file /\
  observed (host_of o) (MapFile (Windows true) true "./demo/lorem_ipsum")
    no_file =
  observed (host_of o) (MapFile Posix true "./demo/lorem_ipsum") no_file /\
  observed (host_of o) (UnmapFile (Windows true) (mkBytes 0x20000 446))
    no_file =
  observed (host_of o) (UnmapFile Posix (mkBytes 0x20000 446)) no_file.
Proof.
  intros o.
  destruct (backends_agree o true true no_file) as (HA & _ & HM & HU).
  split; [|split].
  - apply HA. intros p E; injection E as <-. split; discriminate.
  - apply (HM "./demo/lorem_ipsum"%string 446).
    + reflexivity.
    + intros h E; injection E as <-. split; discriminate.
    + intros h E; injection E as <-. discriminate.
    + intros p E; injection E as <-. split; discriminate.
    + reflexivity.
    + lia.
  - apply HU. unfold well_formed; cbn. split; discriminate.
Defined.

(** C3 as stated fails on the step only one backend has.  A [UNICODE]
    build of the Win32 backend first converts the path into a buffer of
    [MAX_PATH] characters and gives up when that fails; the POSIX backend
    has no such step.  With every other native call coming to the same,
    valid outcome on a file of 446 bytes, the one returns [FALSE] after a
    report and leaves the struct untouched, the other returns [TRUE] with
    the file mapped. *)
Lemma backends_disagree :
  let o := mkOutcomes (Some 0x10000) true (Some 3) (Some 446) (Some 0x68)
             (Some 0x20000) false in
  observed (host_of o) (MapFile (Windows true) false "./demo/lorem_ipsum")
    no_file = (FALSE, no_file, 1%nat) /\
  observed (host_of o) (MapFile Posix false "./demo/lorem_ipsum") no_file
    = (TRUE, mkBytes 0x20000 446, 0%nat).
Proof.
  split; vm_compute; reflexivity.
Qed.

(** ** C4: failure leaves nothing behind *)

(** C4. When [Alloc] or [MapFile] returns [FALSE], the caller's output
    struct is as it was, every handle or descriptor the call acquired has
    been closed, and no block or view has been handed out. *)
Theorem failure_leaves_nothing_behind :
  forall (pf : Platform) (LP : bool) (os : OS) (b : Bytes),
    (forall size,
       result os (Alloc pf LP size) b = FALSE ->
       region os (Alloc pf LP size) b = b /\
       held (calls os (Alloc pf LP size) b) = [] /\
       count establishes (calls os (Alloc pf LP size) b) = 0%nat) /\
    (forall path,
       result os (MapFile pf LP path) b = FALSE ->
       region os (MapFile pf LP path) b = b /\
       held (calls os (MapFile pf LP path) b) = [] /\
       count establishes (calls os (MapFile pf LP path) b) = 0%nat).
Proof.
  intros [[|]|] LP os [p n]; split; intros x.
  all: unfold held, count, establishes, failed.
  all: explore; settle.
  all: repeat split; reflexivity.
Qed.

Lemma failure_leaves_nothing_behind_witness :
  (region (host (failing alloc_call (healthy 5)) 5 "error")
     (Alloc Posix true 4096) no_file = no_file /\
   held (calls (host (failing alloc_call (healthy 5)) 5 "error")
           (Alloc Posix true 4096) no_file) = [] /\
   count establishes
     (calls (host (failing alloc_call (healthy 5)) 5 "error")
        (Alloc Posix true 4096) no_file) = 0%nat) /\
  (region (host (failing memory_call (healthy 5)) 5 "error")
     (MapFile (Windows true) false "./demo/lorem_ipsum") no_file = no_file /\
   held (calls (host (failing memory_call (healthy 5)) 5 "error")
           (MapFile (Windows true) false "./demo/lorem_ipsum") no_file)
     = [] /\
   count establishes
     (calls (host (failing memory_call (healthy 5)) 5 "error")
        (MapFile (Windows true) false "./demo/lorem_ipsum") no_file)
     = 0%nat).
Proof.
  split.
  - pose proof (proj1 (failure_leaves_nothing_behind Posix true
                         (host (failing alloc_call (healthy 5)) 5 "error")
                         no_file)
                  4096) as H.
    apply H. vm_compute; reflexivity.
  - pose proof (proj2 (failure_leaves_nothing_behind (Windows true) false
                         (host (failing memory_call (healthy 5)) 5 "error")
                         no_file)
                  "./demo/lorem_ipsum"%string) as H.
    apply H. vm_compute; reflexivity.
Defined.

(** ** C5: the size of a mapped file *)

(** On the Win32 backend the [size] of a region left by a successful
    [MapFile] is a [DWORD]: [GetFileSize] is asked with a null
    [lpFileSizeHigh]. *)
Lemma MapFile_Windows_size_is_a_DWORD :
  forall (u LP : bool) (os : OS) (path : string) (b : Bytes),
    result os (MapFile (Windows u) LP path) b = TRUE ->
    0 <= size (region os (MapFile (Windows u) LP path) b) < 2 ^ 32.
Proof.
  intros [|] LP os path b.
  all: explore; settle.
  all: rewrite ?to_Uint64_to_DWORD; try apply to_DWORD_range; lia.
Qed.

(** On the POSIX backend a successful [MapFile] leaves the length
    [fstat] stored, as a [size_t]. *)
Lemma MapFile_Posix_size_is_st_size :
  forall (LP : bool) (os : OS) (path : string) (b : Bytes) (n : Z),
    size_determined (calls os (MapFile Posix LP path) b) = Some n ->
    result os (MapFile Posix LP path) b = TRUE ->
    size (region os (MapFile Posix LP path) b) = n.
Proof.
  intros LP os path b n.
  explore; settle.
  all: rewrite ?to_Uint64_to_size_t; congruence.
Qed.

(** C5 at a file of 2^32 + 1 bytes, every native call succeeding: the
    Win32 backend maps the file and leaves [size = 1], the low-order
    doubleword of the length; the POSIX backend leaves the length. *)
Theorem MapFile_Windows_truncates_size :
  let S := 2 ^ 32 + 1 in
  let os := host (healthy S) S "error" in
  run os (MapFile (Windows false) false "./big") no_file
    = (TRUE,
       mkState (mkBytes 0x20000 1)
         [Ev (CreateFile "./big" 0x80000000 0 0 3 0x80 0) 0x64;
          Ev (GetFileSize 0x64 0) 1;
          Ev (CreateFileMapping 0x64 0 2 0 0 0) 0x68;
          Ev (MapViewOfFile 0x68 4 0 0 0) 0x20000;
          Ev (GetFileSize 0x64 0) 1;
          Ev (CloseHandle 0x68) 1;
          Ev (CloseHandle 0x64) 1]) /\
  region os (MapFile Posix false "./big") no_file
    = mkBytes 0x7f0000000000 S.
Proof.
  split; vm_compute; reflexivity.
Qed.

(** ** C6: the failures of MapFile *)

(** Whenever a native call whose failure [MapFile] tests has failed,
    [MapFile] returns [FALSE] and the sink has been invoked once. *)
Lemma MapFile_tested_failure_fails :
  forall (pf : Platform) (LP : bool) (os : OS) (path : string) (b : Bytes)
         (e : Event),
    tested_call (ev_call e) = true -> failed e = true ->
    In e (calls os (MapFile pf LP path) b) ->
    result os (MapFile pf LP path) b = FALSE /\
    count is_report (calls os (MapFile pf LP path) b) = 1%nat.
Proof.
  intros [[|]|] LP os path b e Ht Hf.
  all: unfold count; explore; intros Hin.
  all: repeat (destruct Hin as [<- | Hin]; [ | ]); try contradiction.
  all: try discriminate Ht.
  all: unfold failed in Hf; cbn in Hf; tests; try congruence.
  all: split; reflexivity.
Qed.

(** C6 at a file that opens and whose size query fails, every other
    native call succeeding: on the Win32 backend the answer
    [INVALID_FILE_SIZE] is not tested, [MapFile] returns [TRUE] with
    [size = 0xFFFFFFFF] and the sink is never invoked; on the POSIX
    backend [MapFile] returns [FALSE] after one report. *)
Theorem MapFile_Windows_ignores_failed_size_query :
  let os := host (failing size_query (healthy 5)) 5 "error" in
  run os (MapFile (Windows false) false "./demo/lorem_ipsum") no_file
    = (TRUE,
       mkState (mkBytes 0x20000 0xFFFFFFFF)
         [Ev (CreateFile "./demo/lorem_ipsum" 0x80000000 0 0 3 0x80 0) 0x64;
          Ev (GetFileSize 0x64 0) WinH.INVALID_FILE_SIZE;
          Ev (CreateFileMapping 0x64 0 2 0 0 0) 0x68;
          Ev (MapViewOfFile 0x68 4 0 0 0) 0x20000;
          Ev (GetFileSize 0x64 0) WinH.INVALID_FILE_SIZE;
          Ev (CloseHandle 0x68) 1;
          Ev (CloseHandle 0x64) 1]) /\
  run os (MapFile Posix false "./demo/lorem_ipsum") no_file
    = (FALSE,
       mkState no_file
         [Ev (open "./demo/lorem_ipsum" 0) 3;
          Ev (fstat 3) (-1, 5);
          Ev errno 0;
          Ev (strerror 0) "error"%string;
          Ev (TRACE_ERROR "error") tt;
          Ev (close 3) 0]).
Proof.
  split; vm_compute; reflexivity.
Qed.

(** ** C7: one report per failure *)

(** C7. Each of [Alloc], [Free], [MapFile] and [UnmapFile] invokes
    [TRACE_ERROR] exactly once when it returns [FALSE] and never when it
    returns [TRUE]; once a native call whose failure the operation tests
    has failed, the operation makes no further native call except to
    produce the error text and close handles, so nothing is tried twice. *)
Theorem one_report_per_failure :
  forall (pf : Platform) (LP : bool) (os : OS) (b : Bytes),
    (forall size, reported_once os (Alloc pf LP size) b) /\
    (forall bytes, reported_once os (Free pf bytes) b) /\
    (forall path, reported_once os (MapFile pf LP path) b) /\
    (forall fileMap, reported_once os (UnmapFile pf fileMap) b).
Proof.
  intros [[|]|] LP os b; repeat split.
  all: unfold count, failed; explore; settle.
Qed.

(** ** C8: huge pages *)



(** ** C9: the invariant of a region *)

(** What the code itself secures of the invariant.  A successful [Alloc]
    of a non-zero size, and a successful [MapFile], leave a region with
    [size = 0] exactly when [base = NULL], provided no call that hands
    out memory answered the null address and the size queries of the run
    reported one length; [Alloc] then never leaves the sentinel, and
    [MapFile] leaves it only on the path where its size query reported
    zero. *)
Lemma produced_region_invariant :
  forall (pf : Platform) (LP : bool) (os : OS) (b : Bytes),
    (forall n,
       n <> 0 ->
       null_free (calls os (Alloc pf LP n) b) = true ->
       result os (Alloc pf LP n) b = TRUE ->
       (size (region os (Alloc pf LP n) b) = 0 <->
        base (region os (Alloc pf LP n) b) = NULL) /\
       region os (Alloc pf LP n) b <> sentinel) /\
    (forall path,
       null_free (calls os (MapFile pf LP path) b) = true ->
       steady (calls os (MapFile pf LP path) b) = true ->
       result os (MapFile pf LP path) b = TRUE ->
       (size (region os (MapFile pf LP path) b) = 0 <->
        base (region os (MapFile pf LP path) b) = NULL) /\
       (region os (MapFile pf LP path) b = sentinel ->
        size_determined (calls os (MapFile pf LP path) b) = Some 0)).
Proof.
  intros [[|]|] LP os b; (split; [intros x Hx | intros x]).
  all: unfold steady; explore.
  all: rewrite ?to_Uint64_to_size_t, ?to_Uint64_to_DWORD.
  all: rewrite ?andb_true_r.
  all: intros; tests; try discriminate.
  all: unfold sentinel.
  all: split; [split; intro; congruence | intro E].
  all: try (injection E as E1 E2); congruence.
Qed.

Lemma produced_region_invariant_witness :
  let os := host (healthy 5) 5 "error" in
  ((size (region os (Alloc (Windows false) true 4096) no_file) = 0 <->
    base (region os (Alloc (Windows false) true 4096) no_file) = NULL) /\
   region os (Alloc (Windows false) true 4096) no_file <> sentinel) /\
  ((size (region os (MapFile Posix false "./demo/lorem_ipsum") no_file) = 0 <->
    base (region os (MapFile Posix false "./demo/lorem_ipsum") no_file) = NULL)
   /\
   (region os (MapFile Posix false "./demo/lorem_ipsum") no_file = sentinel ->
    size_determined
      (calls os (MapFile Posix false "./demo/lorem_ipsum") no_file) = Some 0)).
Proof.
  intros os. split.
  - pose proof (proj1 (produced_region_invariant (Windows false) true os
                         no_file) 4096) as H.
    apply H; [discriminate | vm_compute; reflexivity | vm_compute; reflexivity].
  - pose proof (proj2 (produced_region_invariant Posix false os no_file)
                  "./demo/lorem_ipsum"%string) as H.
    apply H; vm_compute; reflexivity.
Defined.

(** C9 at a file of 2^32 bytes, every native call succeeding.  The Win32
    backend reads the length as a [DWORD], finds zero, and returns [TRUE]
    with the empty sentinel for a file that is not empty; the POSIX
    backend maps the same file and leaves its length.  This is the
    truncation of C5 again, met at the test for the empty file. *)
Theorem MapFile_Windows_gives_sentinel_to_4GiB_file :
  let S := 2 ^ 32 in
  let os := host (healthy S) S "error" in
  run os (MapFile (Windows false) false "./big") no_file
    = (TRUE,
       mkState sentinel
         [Ev (CreateFile "./big" 0x80000000 0 0 3 0x80 0) 0x64;
          Ev (GetFileSize 0x64 0) 0;
          Ev (CloseHandle 0x64) 1]) /\
  region os (MapFile Posix false "./big") no_file
    = mkBytes 0x7f0000000000 S.
Proof.
  split; vm_compute; reflexivity.
Qed.

(** ** C10: the size field on release *)

(** C10. On the Win32 backend [Free] does not look at the [size] field:
    two regions with the same [base] give the same run, whatever their
    sizes.  On the POSIX backend [Free] hands the size to [munmap], and
    there is a host on which two regions with the same [base] and
    different sizes give different results. *)
Theorem Free_and_the_size_field :
  (forall (u : bool) (os : OS) (p n1 n2 : Z) (b : Bytes),
     run os (Free (Windows u) (mkBytes p n1)) b =
     run os (Free (Windows u) (mkBytes p n2)) b) /\
  (forall (os : OS) (p n : Z) (b : Bytes),
     exists r rest,
       calls os (Free Posix (mkBytes p n)) b =
       Ev (munmap p (to_size_t n)) r :: rest) /\
  (exists (os : OS) (p n1 n2 : Z) (b : Bytes),
     result os (Free Posix (mkBytes p n1)) b <>
     result os (Free Posix (mkBytes p n2)) b).
Proof.
  split; [|split].
  - intros u os p n1 n2 b. reflexivity.
  - intros os p n b. explore; eexists; eexists; reflexivity.
  - exists (host (fun c => match c with
                           | munmap _ 0 => -1
                           | _ => healthy 5 c
                           end) 5 "error").
    exists 0x7f0000000000, 0, 4096, no_file.
    vm_compute. discriminate.
Qed.

(** ** The operations in use *)

(** A test on constants came out against its value. *)
Ltac closed_test :=
  match goal with
  | H : ?t = _ |- _ =>
      tryif (match t with context [?v] => is_var v end) then fail
      else (vm_compute in H; discriminate H)
  end.

Ltac explore_after := unfold after; explore.

Lemma to_size_t_idem (x : Z) : to_size_t (to_size_t x) = to_size_t x.
Proof. unfold to_size_t. apply Z.mod_mod. lia. Qed.

(** X1. Whatever the host, when [Alloc] has returned [TRUE], [Free] on
    the region it stored makes its release on exactly what was handed out:
    the run of the two consists of the allocation call, which succeeded,
    followed by a release of the address it answered ([VirtualFree] with
    size 0 and [MEM_RELEASE]; [munmap] with the length that was asked of
    [mmap]). *)
Theorem Free_gives_back_what_Alloc_got :
  forall (pf : Platform) (LP : bool) (os : OS) (n : Z) (b : Bytes),
    result os (Alloc pf LP n) b = TRUE ->
    exists g r rest,
      trace (snd (after os (Alloc pf LP n) (Free pf) b)) = g :: r :: rest /\
      establishes g = true /\ gives_back g r = true /\
      forallb is_reporting rest = true.
Proof.
  intros [[|]|] LP os n b.
  all: explore_after; intros H; try discriminate H.
  all: do 3 eexists; split; [reflexivity|].
  all: unfold establishes, gives_back, failed; cbn.
  all: recall_tests; rewrite ?Z.eqb_refl; repeat split; reflexivity.
Qed.

Lemma Free_gives_back_what_Alloc_got_witness :
  exists g r rest,
    trace (snd (after (host (healthy 5) 5 "error") (Alloc Posix false 256)
                  (Free Posix) no_file)) = g :: r :: rest /\
    establishes g = true /\ gives_back g r = true /\
    forallb is_reporting rest = true.
Proof.
  apply (Free_gives_back_what_Alloc_got Posix false
           (host (healthy 5) 5 "error") 256 no_file).
  vm_compute; reflexivity.
Defined.

(** X2. Whatever the host, when [MapFile] has returned [TRUE] and left a
    region with [size = 0] exactly when [base = NULL], [UnmapFile] on that
    region undoes what was done: either the region is the sentinel and the
    two operations handed out and gave back nothing, or exactly one view
    was established, at [base], and the one release that follows gives it
    back ([UnmapViewOfFile] on its address; [munmap] on its address and
    the length mapped). *)
Theorem UnmapFile_gives_back_what_MapFile_got :
  forall (pf : Platform) (LP : bool) (os : OS) (path : string) (b : Bytes),
    result os (MapFile pf LP path) b = TRUE ->
    (size (region os (MapFile pf LP path) b) = 0 <->
     base (region os (MapFile pf LP path) b) = NULL) ->
    (region os (MapFile pf LP path) b = sentinel /\
     filter is_memory_event
       (trace (snd (after os (MapFile pf LP path) (UnmapFile pf) b))) = [])
    \/
    (exists g r,
       filter is_memory_event
         (trace (snd (after os (MapFile pf LP path) (UnmapFile pf) b)))
         = [g; r] /\
       establishes g = true /\
       status g = Some (base (region os (MapFile pf LP path) b)) /\
       gives_back g r = true).
Proof.
  intros [[|]|] LP os path b.
  all: explore_after; intros H Hinv; try discriminate H.
  all: try (left; split; reflexivity).
  all: try (exfalso; tests; rewrite ?to_Uint64_to_size_t in *; tauto).
  all: right; do 2 eexists; split; [reflexivity|].
  all: unfold establishes, gives_back, failed; cbn.
  all: rewrite ?to_Uint64_to_size_t, ?to_size_t_idem.
  all: recall_tests; rewrite ?Z.eqb_refl; repeat split; reflexivity.
Qed.

Lemma UnmapFile_gives_back_what_MapFile_got_witness :
  let os := host (healthy 446) 446 "error" in
  exists g r,
    filter is_memory_event
      (trace (snd (after os (MapFile (Windows true) false "./demo/lorem_ipsum")
                     (UnmapFile (Windows true)) no_file)))
      = [g; r] /\
    establishes g = true /\
    status g = Some 0x20000 /\
    gives_back g r = true.
Proof.
  intros os.
  destruct (UnmapFile_gives_back_what_MapFile_got (Windows true) false os
              "./demo/lorem_ipsum" no_file) as [[E _] | H].
  - vm_compute; reflexivity.
  - vm_compute. split; discriminate.
  - vm_compute in E. discriminate E.
  - exact H.
Defined.

(** X3. No operation returns with a handle or descriptor still open,
    whether it succeeds or fails and whatever the host answers: [MapFile]
    closes the file, and the mapping object when it got one, on every
    path; [Alloc], [Free] and [UnmapFile] acquire none. *)
Theorem no_handle_outlives_an_operation :
  forall (pf : Platform) (LP : bool) (os : OS) (b : Bytes),
    (forall path, held (calls os (MapFile pf LP path) b) = []) /\
    (forall n, held (calls os (Alloc pf LP n) b) = []) /\
    (forall r, held (calls os (Free pf r) b) = []) /\
    (forall r, held (calls os (UnmapFile pf r) b) = []).
Proof.
  intros [[|]|] LP os b; repeat split; intros x.
  all: unfold held; explore; settle.
Qed.

(** X4. [MapFile] asks for nothing beyond reading an existing file: in
    every run, on every path, with or without [LARGE_PAGES], each call
    that opens the file, creates the mapping object or maps the view
    carries read-only access. *)
Theorem MapFile_only_reads :
  forall (pf : Platform) (LP : bool) (os : OS) (path : string) (b : Bytes),
    forallb (fun e => read_only (ev_call e)) (calls os (MapFile pf LP path) b)
    = true.
Proof.
  intros [[|]|] [|] os path b.
  all: explore; try reflexivity; closed_test.
Qed.

(** X5. The page-size flag follows the build and nothing else: in every
    run of [Alloc] and of [MapFile], a call asks for huge pages exactly
    when the build defines [LARGE_PAGES] and the call is one that carries
    the flag ([VirtualAlloc], [CreateFileMapping], [mmap]). *)
Theorem page_flag_follows_the_build :
  forall (pf : Platform) (LP : bool) (os : OS) (b : Bytes),
    (forall n,
       forallb (fun e => Bool.eqb (asks_huge_pages e)
                           (LP && carries_page_flag (ev_call e)))
         (calls os (Alloc pf LP n) b) = true) /\
    (forall path,
       forallb (fun e => Bool.eqb (asks_huge_pages e)
                           (LP && carries_page_flag (ev_call e)))
         (calls os (MapFile pf LP path) b) = true).
Proof.
  intros [[|]|] [|] os b; split; intros x.
  all: explore; try reflexivity; closed_test.
Qed.

(** A text was compared with itself and found different. *)
Ltac same_text :=
  match goal with
  | H : String.eqb ?s ?s = false |- _ =>
      rewrite String.eqb_refl in H; discriminate H
  end.

(** X6. An operation returns [FALSE] exactly when its log holds a report
    made at once: a native call whose failure the operation tests,
    followed directly by the reading of the error code ([errno];
    [GetLastError]), before any handle is closed; the sink is given the
    platform's text for that very code ([strerror]; [FormatMessage], its
    buffer converted when the build is [UNICODE], or the fixed text when
    it formats nothing); and after the sink only handles are closed. *)
Theorem failure_is_reported_at_once :
  forall (pf : Platform) (LP : bool) (os : OS) (b : Bytes),
    (forall n,
       reported_at_once pf (calls os (Alloc pf LP n) b) =
       negb (result os (Alloc pf LP n) b)) /\
    (forall r,
       reported_at_once pf (calls os (Free pf r) b) =
       negb (result os (Free pf r) b)) /\
    (forall path,
       reported_at_once pf (calls os (MapFile pf LP path) b) =
       negb (result os (MapFile pf LP path) b)) /\
    (forall r,
       reported_at_once pf (calls os (UnmapFile pf r) b) =
       negb (result os (UnmapFile pf r) b)).
Proof.
  intros [[|]|] LP os b; repeat split; intros x.
  all: unfold reported_at_once; explore.
  all: rewrite ?String.eqb_refl; try reflexivity; try same_text; settle.
Qed.

(** X7. [MapFile] opens the file it is given and no other: every run
    makes exactly one native open, under the path passed in (on a
    [UNICODE] build, under what [MultiByteToWideChar] made of it), unless
    the conversion of the path fails; then no open is made at all, the
    struct is not written, the failure is reported once and [FALSE] is
    returned. *)
Theorem MapFile_opens_the_named_file :
  forall (pf : Platform) (LP : bool) (os : OS) (path : string) (b : Bytes),
    if conversion_fails pf os path then
      files_opened (calls os (MapFile pf LP path) b) = [] /\
      observed os (MapFile pf LP path) b = (FALSE, b, 1%nat)
    else
      files_opened (calls os (MapFile pf LP path) b) =
      [name_handed_on pf os path].
Proof.
  intros [[|]|] LP os path b.
  all: unfold conversion_fails, name_handed_on, observed, count.
  all: explore; try reflexivity.
  all: split; reflexivity.
Qed.

(** X8. [Free] has no guard: for every region, the empty sentinel
    included, it starts with one native release on [base], calls nothing
    else but the production of the report, and never writes the struct.
    It returns [TRUE] exactly when [VirtualFree] answers non-zero, or
    [munmap] answers zero. *)
Theorem Free_always_releases :
  forall (pf : Platform) (os : OS) (r b : Bytes),
    exists e rest,
      calls os (Free pf r) b = e :: rest /\
      is_release_call e = true /\
      release_target e = Some (base r) /\
      forallb is_reporting rest = true /\
      region os (Free pf r) b = b /\
      result os (Free pf r) b =
      match pf, status e with
      | Windows _, Some a => negb (a =? 0)
      | Posix, Some a => a =? 0
      | _, None => false
      end.
Proof.
  intros [[|]|] os r b.
  all: explore.
  all: do 2 eexists; split; [reflexivity|]; cbn.
  all: repeat match goal with
       | H : negb ?t = _ |- _ => destruct t; try discriminate H
       end.
  all: recall_tests; repeat split; reflexivity.
Qed.

(** X9. The struct behind the pointer may hold anything when [Alloc] or
    [MapFile] is called: on [TRUE] both of its fields have been written,
    so the region left does not depend on what it held, and on [FALSE] it
    is left as it was.  [UnmapFile], like [Free], never writes it. *)
Theorem struct_contents_do_not_matter :
  forall (pf : Platform) (LP : bool) (os : OS) (b1 b2 : Bytes),
    (forall n,
       if result os (Alloc pf LP n) b1
       then region os (Alloc pf LP n) b1 = region os (Alloc pf LP n) b2
       else region os (Alloc pf LP n) b1 = b1) /\
    (forall path,
       if result os (MapFile pf LP path) b1
       then region os (MapFile pf LP path) b1 =
            region os (MapFile pf LP path) b2
       else region os (MapFile pf LP path) b1 = b1) /\
    (forall r, region os (UnmapFile pf r) b1 = b1).
Proof.
  intros [[|]|] LP os b1 b2; (split; [|split]); intros x.
  all: explore; reflexivity.
Qed.

(** X10. A region left by a successful [Alloc] describes exactly the
    block the host granted: for a size below 2^64 the run is the one
    allocation call, and the address it answered and the length asked of
    it are the region's [base] and [size]. *)
Theorem Alloc_region_is_the_block_granted :
  forall (pf : Platform) (LP : bool) (os : OS) (n : Z) (b : Bytes),
    0 <= n < 2 ^ 64 ->
    result os (Alloc pf LP n) b = TRUE ->
    exists g,
      calls os (Alloc pf LP n) b = [g] /\
      granted g =
      Some (base (region os (Alloc pf LP n) b),
            size (region os (Alloc pf LP n) b)) /\
      size (region os (Alloc pf LP n) b) = n.
Proof.
  intros pf LP os n b Hn.
  assert (E : to_size_t n = n) by (apply Z.mod_small; exact Hn).
  destruct pf as [[|]|].
  all: explore; intros H; try discriminate H.
  all: eexists; split; [reflexivity|].
  all: unfold granted, failed; cbn; recall_tests; rewrite E.
  all: split; reflexivity.
Qed.

Lemma Alloc_region_is_the_block_granted_witness :
  exists g,
    calls (host (healthy 5) 5 "error") (Alloc (Windows false) true 4096)
      no_file = [g] /\
    granted g =
    Some (base (region (host (healthy 5) 5 "error")
                  (Alloc (Windows false) true 4096) no_file),
          size (region (host (healthy 5) 5 "error")
                  (Alloc (Windows false) true 4096) no_file)) /\
    size (region (host (healthy 5) 5 "error")
            (Alloc (Windows false) true 4096) no_file) = 4096.
Proof.
  apply (Alloc_region_is_the_block_granted (Windows false) true
           (host (healthy 5) 5 "error") 4096 no_file).
  - lia.
  - vm_compute; reflexivity.
Defined.

(** ** The demonstration programs at work *)

(** The programs pass constants: conversions of constants stay folded
    while a run is explored. *)
#[local] Arguments Z.pow : simpl never.
#[local] Arguments to_int : simpl never.
#[local] Arguments to_size_t : simpl never.
#[local] Arguments String.prefix : simpl never.

Lemma held_from_app (acc : list Z) (l1 l2 : list Event) :
  held_from acc (l1 ++ l2) = held_from (held_from acc l1) l2.
Proof.
  revert acc. induction l1 as [|e l1 IH]; intros acc; cbn.
  - reflexivity.
  - apply IH.
Qed.

Lemma count_app (p : Event -> bool) (l1 l2 : list Event) :
  count p (l1 ++ l2) = (count p l1 + count p l2)%nat.
Proof.
  unfold count. rewrite filter_app, length_app. reflexivity.
Qed.

(** X11. [demo/1_alloc_and_free.c], on any host: the program fills
    memory only where an allocation call of its run handed it out, over
    exactly the length asked of that call; it gives back every block it
    was handed (one release for each successful allocation, none
    otherwise); and it prints one error line of its own for each report
    made to the sink. *)
Theorem Demo1_fills_what_it_was_given :
  forall (pf : Platform) (os : OS) (bytes : Bytes),
    let p := Demo1.main pf os bytes in
    forallb (handed_out (trace (machine p))) (filled (libc p)) = true /\
    count is_release_call (trace (machine p)) =
    count establishes (trace (machine p)) /\
    List.length (filter is_error_line (libc p)) =
    count is_report (trace (machine p)).
Proof.
  intros [[|]|] os bytes p; subst p.
  all: unfold Demo1.main, handed_out, granted, count, establishes, failed.
  all: explore.
  all: rewrite ?Z.eqb_refl; try (repeat split; reflexivity).
  all: try closed_test; settle.
Qed.

(** One call of [MapAndUnmapFile], from any process: it adds to the log
    a run that leaves no handle open and to the output one error line of
    its own for each report made to the sink. *)
Lemma MapAndUnmapFile_step :
  forall (pf : Platform) (os : OS) (path : string) (fileMap : Bytes)
         (p : Process),
    let p' := Demo2.MapAndUnmapFile pf os path fileMap p in
    exists l a,
      trace (machine p') = trace (machine p) ++ l /\
      libc p' = libc p ++ a /\
      held l = [] /\
      List.length (filter is_error_line a) = count is_report l.
Proof.
  intros [[|]|] os path fileMap p p'; subst p'.
  all: unfold Demo2.MapAndUnmapFile, held, count.
  all: explore.
  all: rewrite <- ?app_assoc; cbn.
  all: do 2 eexists; split; [reflexivity|]; split; [reflexivity|].
  all: cbn; repeat first [ progress (rewrite ?Z.eqb_refl; cbn)
                         | branch; cbn ].
  all: try (split; reflexivity); try closed_test; settle.
Qed.

(** X12. [demo/2_map_and_unmap_file.c], on any host and whatever the two
    uninitialised structs hold: when [main] returns no handle or
    descriptor is left open, and the program has printed one error line
    of its own for each report made to the sink, over its two files. *)
Theorem Demo2_leaves_no_handle_open :
  forall (pf : Platform) (os : OS) (fileMap1 fileMap2 : Bytes),
    let p := Demo2.main pf os fileMap1 fileMap2 in
    held (trace (machine p)) = [] /\
    List.length (filter is_error_line (libc p)) =
    count is_report (trace (machine p)).
Proof.
  intros pf os f1 f2 p; subst p. unfold Demo2.main.
  destruct (MapAndUnmapFile_step pf os "./demo/lorem_ipsum" f1
              (mkProcess (mkState f1 []) [])) as (l1 & a1 & T1 & L1 & H1 & C1).
  destruct (MapAndUnmapFile_step pf os "./demo/empty_file" f2
              (Demo2.MapAndUnmapFile pf os "./demo/lorem_ipsum" f1
                 (mkProcess (mkState f1 []) [])))
    as (l2 & a2 & T2 & L2 & H2 & C2).
  rewrite T2, L2, T1, L1. cbn [machine libc trace app].
  split.
  - unfold held in *. rewrite held_from_app, H1. exact H2.
  - rewrite filter_app, length_app, count_app, C1, C2. reflexivity.
Qed.



Lemma files_opened_app (l1 l2 : list Event) :
  files_opened (l1 ++ l2) = files_opened l1 ++ files_opened l2.
Proof.
  induction l1 as [|e l1 IH]; cbn.
  - reflexivity.
  - destruct (file_opened e); cbn; rewrite IH; reflexivity.
Qed.

(** X14. [demo/2_map_and_unmap_file.c], on any host of a build without
    [UNICODE]: [main] opens its two files in the order written, the
    second whether or not the first could be mapped or unmapped, and
    opens nothing else. *)
Theorem Demo2_opens_both_files :
  forall (os : OS) (fileMap1 fileMap2 : Bytes),
    files_opened
      (trace (machine (Demo2.main (Windows false) os fileMap1 fileMap2)))
    = ["./demo/lorem_ipsum"%string; "./demo/empty_file"%string] /\
    files_opened (trace (machine (Demo2.main Posix os fileMap1 fileMap2)))
    = ["./demo/lorem_ipsum"%string; "./demo/empty_file"%string].
Proof.
  assert (step : forall pf os path fileMap p,
             pf = Windows false \/ pf = Posix ->
             files_opened
               (trace (machine (Demo2.MapAndUnmapFile pf os path fileMap p)))
             = files_opened (trace (machine p)) ++ [path]).
  { intros pf os path fileMap p [-> | ->].
    all: unfold Demo2.MapAndUnmapFile; explore.
    all: rewrite <- ?app_assoc; cbn.
    all: rewrite files_opened_app; reflexivity. }
  intros os f1 f2. unfold Demo2.main.
  rewrite !step by (left; reflexivity || right; reflexivity).
  rewrite !step by (right; reflexivity).
  split; reflexivity.
Qed.

